(** * Likelihood-field measurement update: a shallow embedding

    Source: [scripts/measurement_update_likelihood_field.py], a ROS node that
    seeds four particles and, on every laser scan, tries to re-weight them with
    the likelihood-field measurement model.

    The embedding follows the script function by function.  Python floats are
    kept abstract behind the interface [Float]: the statements about the
    callback hold for every reading of the float operations.  The instance
    [R_Float] is used only to write down concrete nodes and scans, whose
    numbers are literal data. *)

From Stdlib Require Import Reals Lra Lia ZArith QArith Qreals List String Bool.
Import ListNotations.
Local Open Scope string_scope.
Local Open Scope list_scope.

(** ** Python floats, abstractly *)

Class Float (F : Type) : Type := {
  flit  : Q -> F;          (* a decimal literal such as [1.0] or [0.1] *)
  fint  : Z -> F;          (* an [int] operand promoted to [float] *)
  fpi   : F;               (* [math.pi], [np.pi] *)
  fadd  : F -> F -> F;
  fmul  : F -> F -> F;
  fdiv  : F -> F -> F;
  fneg  : F -> F;
  fpow  : F -> nat -> F;   (* [math.pow(x, n)] for a literal integer [n] *)
  fsqrt : F -> F;          (* [math.sqrt] *)
  fexp  : F -> F;          (* [math.exp] *)
  fcos  : F -> F;          (* [np.cos] *)
  fsin  : F -> F           (* [np.sin] *)
}.

(** The operations on real numbers.  Rounding, overflow and underflow of
    binary64 are not in this reading; it serves to name concrete inputs. *)
#[export] Instance R_Float : Float R := {|
  flit := Q2R; fint := IZR; fpi := PI;
  fadd := Rplus; fmul := Rmult; fdiv := Rdiv; fneg := Ropp;
  fpow := pow; fsqrt := sqrt; fexp := exp;
  fcos := cos; fsin := sin
|}.

(** ** [compute_prob_zero_centered_gaussian] (lines 18-23) *)

Section Gaussian.
Context {F : Type} `{Float F}.

(** The operations of lines 21-22, in their order.  In Python the divisions
    raise [ZeroDivisionError] on a zero divisor and [math.pow], [math.exp]
    raise [OverflowError]; no statement below depends on the value. *)
Definition compute_prob_zero_centered_gaussian (dist sd : F) : F :=
  let c := fdiv (flit 1) (fmul sd (fsqrt (fmul (fint 2) fpi))) in
  let prob :=
    fmul c (fexp (fdiv (fneg (fpow dist 2)) (fmul (fint 2) (fpow sd 2)))) in
  prob.
End Gaussian.

(** ** Exceptions and fallible results *)

Inductive exn : Type :=
| NameError (name : string)        (* a free name bound nowhere *)
| TypeError (msg : string)
| IndexError                       (* sequence index out of range *)
| AttributeError (attr : string)   (* attribute read before it was set *)
| ForeignError (cls : string).     (* raised by code outside the script *)

Inductive result (A : Type) : Type :=
| Ok (a : A)
| Raise (e : exn).
Arguments Ok {A} a.
Arguments Raise {A} e.

(** A computation of the scan callback: the distance-field queries it made,
    in order, each with the world point asked for, together with its value or
    the exception that ended it. *)
Definition M (F A : Type) : Type := (list (F * F) * result A)%type.

Definition ret {F A : Type} (a : A) : M F A := ([], Ok a).

Definition lift {F A : Type} (r : result A) : M F A := ([], r).

Definition bind {F A B : Type} (m : M F A) (k : A -> M F B) : M F B :=
  match m with
  | (l, Ok a) => let (l', r) := k a in (l ++ l', r)
  | (l, Raise e) => (l, Raise e)
  end.

Notation "x <- m ;; k" := (bind m (fun x => k))
  (at level 61, m at next level, right associativity).

Definition queries {F A : Type} (m : M F A) : list (F * F) := fst m.
Definition outcome {F A : Type} (m : M F A) : result A := snd m.

(** ** Python values the callback reads by name *)

(** What a module-level name may be bound to, as far as the callback cares:
    a collection of integer indices, or something that is no such
    collection (a module, a class, a function, ...). *)
Inductive pyobj : Type :=
| PyInts (l : list Z)
| PyOther (kind : string).

Definition globals : Type := list (string * pyobj).

Fixpoint lookup_global (g : globals) (name : string) : result pyobj :=
  match g with
  | [] => Raise (NameError name)
  | (n, o) :: g' => if String.eqb n name then Ok o else lookup_global g' name
  end.

(** [for v in o]: the elements of [o]. *)
Definition py_iter (o : pyobj) : result (list Z) :=
  match o with
  | PyInts l => Ok l
  | PyOther kind => Raise (TypeError (String.append kind " object is not iterable"))
  end.

(** [range(n)] *)
Definition range (n : nat) : list Z := List.map Z.of_nat (seq 0 n).

(** [l[i]] on a list or tuple: a negative index counts from the end. *)
Definition py_index {A : Type} (l : list A) (i : Z) : result A :=
  let n := Z.of_nat (List.length l) in
  let j := if (i <? 0)%Z then (i + n)%Z else i in
  if ((0 <=? j)%Z && (j <? n)%Z)%bool
  then match nth_error l (Z.to_nat j) with
       | Some a => Ok a
       | None => Raise IndexError
       end
  else Raise IndexError.

(** The names the script binds at module level (lines 3-15, 18, 26, 41, 167).
    No builtin is called [cardinal_directions_idxs] either. *)
Definition script_globals : globals :=
  List.map (fun n => (n, PyOther "module")) ["rospy"; "math"; "np"]
  ++ List.map (fun n => (n, PyOther "type"))
       ["PoseStamped"; "PoseWithCovarianceStamped"; "PoseArray"; "Pose";
        "Point"; "Quaternion"; "GetMap"; "OccupancyGrid"; "LaserScan";
        "Header"; "String"; "LikelihoodField"; "Particle";
        "LikelihoodFieldMeasurementUpdate"]
  ++ List.map (fun n => (n, PyOther "function"))
       ["quaternion_from_euler"; "euler_from_quaternion";
        "compute_prob_zero_centered_gaussian"]
  ++ [("node", PyOther "LikelihoodFieldMeasurementUpdate")].

(** ** Messages and particles *)

(** geometry_msgs *)
Record Point (F : Type) : Type := mkPoint { px : F; py : F; pz : F }.
Record Quaternion (F : Type) : Type :=
  mkQuaternion { qx : F; qy : F; qz : F; qw : F }.
Record Pose (F : Type) : Type :=
  mkPose { position : Point F; orientation : Quaternion F }.
Arguments mkPoint {F}. Arguments px {F}. Arguments py {F}. Arguments pz {F}.
Arguments mkQuaternion {F}. Arguments qx {F}. Arguments qy {F}.
Arguments qz {F}. Arguments qw {F}.
Arguments mkPose {F}. Arguments position {F}. Arguments orientation {F}.

(** sensor_msgs/LaserScan: beam [i] has range [ranges[i]] and points along
    [angle_min + i * angle_increment] (radians) in the sensor frame. *)
Record LaserScan (F : Type) : Type := mkLaserScan {
  angle_min : F;
  angle_increment : F;
  range_min : F;
  range_max : F;
  ranges : list F
}.
Arguments mkLaserScan {F}. Arguments angle_min {F}.
Arguments angle_increment {F}. Arguments range_min {F}.
Arguments range_max {F}. Arguments ranges {F}.

(** nav_msgs/OccupancyGrid, as far as the script touches it: it is stored. *)
Record OccupancyGrid : Type := mkOccupancyGrid {
  grid_width : Z;
  grid_height : Z;
  grid_data : list Z
}.

(** class Particle (lines 26-30) *)
Record Particle (F : Type) : Type := mkParticle { pose : Pose F; w : F }.
Arguments mkParticle {F}. Arguments pose {F}. Arguments w {F}.

(** [particle.w = q] *)
Definition set_w {F : Type} (p : Particle F) (q : F) : Particle F :=
  {| pose := pose p; w := q |}.

(** Modelled from the spec: the class [LikelihoodField] of
    [likelihood_field.py] is not among the sources.  The spec's query
    [distance_at(world_x, world_y)] returns the distance to the nearest
    obstacle, a capped distance outside the map, and fails when no field is
    ready.  The object is kept as its one method, an arbitrary function that
    may raise. *)
Record LikelihoodField (F : Type) : Type := mkLikelihoodField {
  get_closest_obstacle_distance : F -> F -> result F
}.
Arguments mkLikelihoodField {F}.
Arguments get_closest_obstacle_distance {F}.

(** Attributes of the node object.  [likelihood_field = None] is the node
    before line 64 has run. *)
Record Node (F : Type) : Type := mkNode {
  initialized : bool;
  node_map : option OccupancyGrid;
  likelihood_field : option (LikelihoodField F);
  particle_cloud : list (Particle F)
}.
Arguments mkNode {F}. Arguments initialized {F}. Arguments node_map {F}.
Arguments likelihood_field {F}. Arguments particle_cloud {F}.

(** What the callback finds around it: the module's global names and the two
    functions imported from [tf.transformations].
    [euler_from_quaternion4 x y z w] is the call of lines 142-145, which
    passes the four components as four positional arguments. *)
Record Env (F : Type) : Type := mkEnv {
  module_globals : globals;
  euler_from_quaternion4 : F -> F -> F -> F -> result (F * F * F);
  quaternion_from_euler : F -> F -> F -> Quaternion F
}.
Arguments mkEnv {F}. Arguments module_globals {F}.
Arguments euler_from_quaternion4 {F}. Arguments quaternion_from_euler {F}.

(** The script as shipped: its own global names, whatever [tf] does. *)
Definition script_env {F : Type}
    (e4 : F -> F -> F -> F -> result (F * F * F))
    (qfe : F -> F -> F -> Quaternion F) : Env F :=
  {| module_globals := script_globals;
     euler_from_quaternion4 := e4;
     quaternion_from_euler := qfe |}.

(** [tf.transformations] declares
    [euler_from_quaternion(quaternion, axes='sxyz')]: one sequence and an
    optional axes name, which is how [Particle.__str__] (line 33) calls it.
    Four positional arguments are refused before the body runs. *)
Definition tf_euler_from_quaternion4 {F : Type} (_ _ _ _ : F)
  : result (F * F * F) :=
  Raise (TypeError
    "euler_from_quaternion() takes from 1 to 2 positional arguments but 4 were given").

Definition tf_env {F : Type} (qfe : F -> F -> F -> Quaternion F) : Env F :=
  script_env tf_euler_from_quaternion4 qfe.

Section Script.
Context {F : Type} `{Float F}.

(** *** [initialize_particle_cloud] (lines 73-105) *)

Definition initial_particle_set : list (F * F * F) :=
  [ (flit 0, flit 0, flit 0);
    (flit (-66 # 10), flit (-35 # 10), fpi);
    (flit (58 # 10), flit (-5), fdiv fpi (flit 2));
    (flit (-2), flit (45 # 10), fdiv (fmul fpi (flit 3)) (flit 2)) ].

(** [part.pose for part in self.particle_cloud]: what is published. *)
Definition publish_particle_cloud (self : Node F) : list (Pose F) :=
  List.map pose (particle_cloud self).

(** One pass of the loop body of lines 86-103. *)
Definition seed_particle (env : Env F) (cloud : list (Particle F)) (i : nat)
  : list (Particle F) :=
  let s := nth i initial_particle_set (flit 0, flit 0, flit 0) in
  let p := {| position := {| px := fst (fst s); py := snd (fst s);
                             pz := fint 0 |};
              orientation :=
                quaternion_from_euler env (flit 0) (flit 0) (snd s) |} in
  let new_particle := {| pose := p; w := flit 1 |} in
  cloud ++ [new_particle].

Definition initialize_particle_cloud (env : Env F) (self : Node F)
  : Node F * list (Pose F) :=
  let cloud :=
    fold_left (seed_particle env) (seq 0 (List.length initial_particle_set)) [] in
  let self' := {| initialized := initialized self;
                  node_map := node_map self;
                  likelihood_field := likelihood_field self;
                  particle_cloud := cloud |} in
  (self', publish_particle_cloud self').

(** *** [get_map] (lines 109-111) *)
Definition get_map (self : Node F) (data : OccupancyGrid) : Node F :=
  {| initialized := initialized self;
     node_map := Some data;
     likelihood_field := likelihood_field self;
     particle_cloud := particle_cloud self |}.

(** *** [__init__] (lines 44-70): the node after each assignment.
    Both subscribers are registered right after line 47 (lines 54-57), so a
    scan can reach the callback in any of these states.  [lf] is what
    [LikelihoodField()] returned. *)
Definition init_states (env : Env F) (lf : LikelihoodField F)
  : list (Node F) :=
  let s47 := {| initialized := false; node_map := None;
                likelihood_field := None; particle_cloud := [] |} in
  let s63 := {| initialized := false;
                node_map := Some (mkOccupancyGrid 0 0 []);
                likelihood_field := None; particle_cloud := [] |} in
  let s64 := {| initialized := false; node_map := node_map s63;
                likelihood_field := Some lf; particle_cloud := [] |} in
  let s68 := fst (initialize_particle_cloud env s64) in
  let s70 := {| initialized := true; node_map := node_map s68;
                likelihood_field := likelihood_field s68;
                particle_cloud := particle_cloud s68 |} in
  [s47; s63; s64; s68; s70].

Definition init (env : Env F) (lf : LikelihoodField F) : Node F :=
  last (init_states env lf)
       {| initialized := false; node_map := None;
          likelihood_field := None; particle_cloud := [] |}.

(** *** [robot_scan_received] (lines 126-155) *)

(** Lines 149-150, for one [scan_direction]. *)
Definition scan_end (data : LaserScan F) (particle_x particle_y particle_theta : F)
    (scan_direction : Z) : result (F * F) :=
  match py_index (ranges data) scan_direction with
  | Raise e => Raise e
  | Ok r =>
      let scan_end_x :=
        fadd particle_x
             (fmul r (fcos (fadd particle_theta (fint scan_direction)))) in
      let scan_end_y :=
        fadd particle_y
             (fmul r (fsin (fadd particle_theta (fint scan_direction)))) in
      Ok (scan_end_x, scan_end_y)
  end.

(** Line 151: [self.likelihood_field.get_closest_obstacle_distance(x, y)]. *)
Definition closest_obstacle_distance (self : Node F) (xy : F * F) : M F F :=
  match likelihood_field self with
  | None => lift (Raise (AttributeError "likelihood_field"))
  | Some lf => ([xy], get_closest_obstacle_distance lf (fst xy) (snd xy))
  end.

(** Lines 148-153: the loop over the beams, [q] being the running value. *)
Fixpoint beam_loop (self : Node F) (data : LaserScan F)
    (particle_x particle_y particle_theta : F)
    (idxs : list Z) (q : F) : M F F :=
  match idxs with
  | [] => ret q
  | scan_direction :: rest =>
      xy <- lift (scan_end data particle_x particle_y particle_theta
                           scan_direction) ;;
      dist <- closest_obstacle_distance self xy ;;
      beam_loop self data particle_x particle_y particle_theta rest
                (fmul q (compute_prob_zero_centered_gaussian
                           dist (flit (1 # 10))))
  end.

(** Lines 139-153: the value [q] that line 155 then stores. *)
Definition particle_likelihood (env : Env F) (self : Node F)
    (data : LaserScan F) (particle : Particle F) : M F F :=
  let particle_x := px (position (pose particle)) in
  let particle_y := py (position (pose particle)) in
  euler <- lift (euler_from_quaternion4 env
                   (qx (orientation (pose particle)))
                   (qy (orientation (pose particle)))
                   (qz (orientation (pose particle)))
                   (qw (orientation (pose particle)))) ;;
  let particle_theta := snd euler in
  let q := flit 1 in
  o <- lift (lookup_global (module_globals env) "cardinal_directions_idxs") ;;
  idxs <- lift (py_iter o) ;;
  beam_loop self data particle_x particle_y particle_theta idxs q.

(** Lines 138-155: the loop over the particles.  A particle already
    re-weighted stays so when a later one raises. *)
Fixpoint particle_loop (env : Env F) (self : Node F) (data : LaserScan F)
    (cloud : list (Particle F)) : list (Particle F) * M F unit :=
  match cloud with
  | [] => ([], ret tt)
  | particle :: rest =>
      match particle_likelihood env self data particle with
      | (l, Raise e) => (particle :: rest, (l, Raise e))
      | (l, Ok q) =>
          let (rest', m) := particle_loop env self data rest in
          (set_w particle q :: rest', (l ++ queries m, outcome m))
      end
  end.

(** The callback with the value of its local [direction_idxs] (line 132)
    made explicit. *)
Definition robot_scan_received_with (direction_idxs : list Z)
    (env : Env F) (self : Node F) (data : LaserScan F) : Node F * M F unit :=
  if negb (initialized self) then (self, ret tt)
  else
    let (cloud', m) := particle_loop env self data (particle_cloud self) in
    ({| initialized := initialized self;
        node_map := node_map self;
        likelihood_field := likelihood_field self;
        particle_cloud := cloud' |}, m).

Definition robot_scan_received (env : Env F) (self : Node F)
    (data : LaserScan F) : Node F * M F unit :=
  robot_scan_received_with (range 360) env self data.

(** *** The node's life after [__init__] *)

Inductive event : Type :=
| ScanReceived (data : LaserScan F)
| MapReceived (data : OccupancyGrid)
| PublishTick.                       (* one round of [run], lines 157-161 *)

Definition handle (env : Env F) (self : Node F) (ev : event) : Node F :=
  match ev with
  | ScanReceived data => fst (robot_scan_received env self data)
  | MapReceived data => get_map self data
  | PublishTick => self
  end.

Definition run_events (env : Env F) (self : Node F) (evs : list event)
  : Node F :=
  fold_left (handle env) evs self.

End Script.

(** ** Concrete inputs, and the spec's beam selection *)

Section Beams.
Context {F : Type} `{Float F}.

(** [tf.transformations.quaternion_from_euler(roll, pitch, yaw)], default
    axes: the library's closed formula, as (x, y, z, w). *)
Definition tf_quaternion_from_euler (ai aj ak : F) : Quaternion F :=
  let half a := fdiv a (flit 2) in
  let ci := fcos (half ai) in let si := fsin (half ai) in
  let cj := fcos (half aj) in let sj := fsin (half aj) in
  let ck := fcos (half ak) in let sk := fsin (half ak) in
  {| qx := fadd (fmul (fmul si cj) ck) (fneg (fmul (fmul ci sj) sk));
     qy := fadd (fmul (fmul ci sj) ck) (fmul (fmul si cj) sk);
     qz := fadd (fmul (fmul ci cj) sk) (fneg (fmul (fmul si sj) ck));
     qw := fadd (fmul (fmul ci cj) ck) (fmul (fmul si sj) sk) |}.

(** A stand-in for a conversion that returns: roll, pitch and yaw all [t]. *)
Definition euler_const (t : F) (_ _ _ _ : F) : result (F * F * F) :=
  Ok (t, t, t).

(** A field that answers [d] everywhere. *)
Definition constant_field (d : F) : LikelihoodField F :=
  {| get_closest_obstacle_distance := fun _ _ => Ok d |}.

(** A particle at the origin of the map, heading 0. *)
Definition origin_particle (w0 : F) : Particle F :=
  {| pose := {| position := mkPoint (flit 0) (flit 0) (fint 0);
                orientation :=
                  tf_quaternion_from_euler (flit 0) (flit 0) (flit 0) |};
     w := w0 |}.

(** An initialized node holding that one particle. *)
Definition one_particle_node (lf : LikelihoodField F) (w0 : F) : Node F :=
  {| initialized := true; node_map := None; likelihood_field := Some lf;
     particle_cloud := [origin_particle w0] |}.

(** The node while [__init__] is between lines 47 and 63. *)
Definition fresh_node : Node F :=
  {| initialized := false; node_map := None; likelihood_field := None;
     particle_cloud := [] |}.
End Beams.

(** A reading is a genuine return when it lies within the sensor's limits. *)
Definition beam_usable (data : LaserScan R) (r : R) : bool :=
  if Rle_dec (range_min data) r
  then if Rle_dec r (range_max data) then true else false
  else false.

(** Spec 4.2, step 1: every [stride]-th beam over the length of the scan,
    skipping readings that are invalid or beyond the usable range. *)
Definition select_beams_spec (stride : nat) (data : LaserScan R) : list Z :=
  List.map Z.of_nat
    (List.filter
       (fun i => (Nat.eqb (i mod stride) 0
                  && match nth_error (ranges data) i with
                     | Some r => beam_usable data r
                     | None => false
                     end)%bool)
       (seq 0 (List.length (ranges data)))).

(** A TurtleBot3-like scan: beams one degree apart, usable from 0.12 to 3.5. *)
Definition degree_scan (rs : list R) : LaserScan R :=
  {| angle_min := 0%R; angle_increment := (PI / 180)%R;
     range_min := 0.12%R; range_max := 3.5%R; ranges := rs |}.

(** The seed list as the real numbers it denotes. *)
Definition seed_poses : list (R * R * R) :=
  [ (0, 0, 0); (-6.6, -3.5, PI); (5.8, -5, PI / 2); (-2, 4.5, 3 * PI / 2) ]%R.

Definition seeded_particle (qfe : R -> R -> R -> Quaternion R)
    (s : R * R * R) : Particle R :=
  {| pose := {| position := mkPoint (fst (fst s)) (snd (fst s)) 0%R;
                orientation := qfe 0%R 0%R (snd s) |};
     w := 1%R |}.

(** The spec's failure for a query made before any field exists. *)
Definition FieldNotReady : exn := ForeignError "FieldNotReady".

Local Open Scope R_scope.

Lemma Q2R_1 : Q2R 1 = 1.
Proof. unfold Q2R; simpl; lra. Qed.

(** ** The scan callback, structurally (any float semantics) *)

Section ScriptFacts.
Context {F : Type} `{Float F}.

(** The particle loop keeps every particle in place and touches nothing
    but weights, each computed from its own particle. *)
Lemma particle_loop_frame env self data cloud :
  Forall2 (fun p p' =>
             pose p' = pose p
             /\ (w p' = w p
                 \/ exists l, particle_likelihood env self data p
                              = (l, Ok (w p'))))
          cloud (fst (particle_loop env self data cloud)).
Proof.
  induction cloud as [|p rest IH]; simpl; [constructor|].
  destruct (particle_likelihood env self data p) as [l [q|e]] eqn:Hp.
  - destruct (particle_loop env self data rest) as [rest' m]. simpl in *.
    constructor; [|assumption]. split; [reflexivity|]. right. now exists l.
  - simpl. constructor; [auto|].
    clear. induction rest; constructor; auto.
Qed.

(** In the script's own namespace the name of line 148 is unbound. *)
Lemma cardinal_directions_idxs_unbound :
  lookup_global script_globals "cardinal_directions_idxs"
  = Raise (NameError "cardinal_directions_idxs").
Proof. reflexivity. Qed.

Lemma script_particle_likelihood e4 qfe self data p :
  particle_likelihood (script_env e4 qfe) self data p
  = ([], match e4 (qx (orientation (pose p))) (qy (orientation (pose p)))
                  (qz (orientation (pose p))) (qw (orientation (pose p)))
         with
         | Ok _ => Raise (NameError "cardinal_directions_idxs")
         | Raise e => Raise e
         end).
Proof.
  unfold particle_likelihood, script_env; simpl.
  destruct (e4 _ _ _ _); reflexivity.
Qed.

Lemma uninitialized_scan_is_noop env (self : Node F) data :
  initialized self = false ->
  robot_scan_received env self data = (self, ret tt).
Proof. unfold robot_scan_received, robot_scan_received_with. now intros ->. Qed.

Lemma node_eta (self : Node F) :
  {| initialized := initialized self; node_map := node_map self;
     likelihood_field := likelihood_field self;
     particle_cloud := particle_cloud self |} = self.
Proof. now destruct self. Qed.

(** In the script's own namespace a scan never changes the node. *)
Lemma script_scan_keeps_node e4 qfe (self : Node F) data :
  fst (robot_scan_received (script_env e4 qfe) self data) = self.
Proof.
  unfold robot_scan_received, robot_scan_received_with.
  destruct self as [[|] m lf [|p rest]]; simpl; try reflexivity.
  rewrite script_particle_likelihood.
  destruct (e4 _ _ _ _); reflexivity.
Qed.
End ScriptFacts.

(** ** Frame and failure behaviour of the scan callback *)

Section ScanFrame.
Context {F : Type} `{Float F}.

(** What a scan does in the script's own namespace once the node is
    initialized and holds a particle. *)
Lemma script_scan_outcome e4 qfe (self : Node F) data p rest :
  initialized self = true ->
  particle_cloud self = p :: rest ->
  robot_scan_received (script_env e4 qfe) self data
  = (self,
     ([], match e4 (qx (orientation (pose p))) (qy (orientation (pose p)))
                   (qz (orientation (pose p))) (qw (orientation (pose p)))
          with
          | Ok _ => Raise (NameError "cardinal_directions_idxs")
          | Raise e => Raise e
          end)).
Proof.
  destruct self as [i m lf c]; simpl. intros -> ->.
  unfold robot_scan_received, robot_scan_received_with; simpl.
  rewrite script_particle_likelihood.
  destruct (e4 _ _ _ _); reflexivity.
Qed.

(** C10, amended. For every scan received after initialization with a
    non-empty particle cloud, the update raises before any weight is
    assigned, makes no distance query, and leaves the node - every
    particle's weight included - unchanged.  The four-argument call of
    line 142 comes first: if it raises, that exception ends the update;
    only if it returns is the name [cardinal_directions_idxs] read, which
    no module-level name of the script binds, and the name-resolution
    error is raised.  The local [direction_idxs] plays no part. *)
Theorem scan_update_aborts_before_any_weight
    e4 qfe (self : Node F) data p rest
    (Hinit : initialized self = true)
    (Hcloud : particle_cloud self = p :: rest) :
  let r := robot_scan_received (script_env e4 qfe) self data in
  fst r = self
  /\ queries (snd r) = []
  /\ outcome (snd r)
     = match e4 (qx (orientation (pose p))) (qy (orientation (pose p)))
                (qz (orientation (pose p))) (qw (orientation (pose p)))
       with
       | Ok _ => Raise (NameError "cardinal_directions_idxs")
       | Raise e => Raise e
       end
  /\ lookup_global script_globals "cardinal_directions_idxs"
     = Raise (NameError "cardinal_directions_idxs")
  /\ (forall direction_idxs,
        robot_scan_received_with direction_idxs (script_env e4 qfe) self data
        = r).
Proof.
  cbv zeta. rewrite (script_scan_outcome e4 qfe self data p rest Hinit Hcloud).
  repeat split.
  intros idxs. rewrite <- (script_scan_outcome e4 qfe self data p rest Hinit Hcloud).
  reflexivity.
Qed.

(** C8, amended. While no likelihood field has been built - in every state
    [__init__] passes through before line 64 - the node is not yet marked
    initialized, and a scan arriving then does not fail: the update
    returns at once, with no query made and the node unchanged. *)
Theorem scan_without_field_is_noop
    (env : Env F) (lf : LikelihoodField F) (self : Node F) data
    (Hstate : In self (init_states env lf))
    (Hfield : likelihood_field self = None) :
  initialized self = false
  /\ robot_scan_received env self data = (self, ([], Ok tt)).
Proof.
  assert (Hi : initialized self = false).
  { unfold init_states in Hstate. simpl in Hstate.
    destruct Hstate as [<-|[<-|[<-|[<-|[<-|[]]]]]]; simpl in *;
      try reflexivity; discriminate. }
  split; [assumption|]. now apply uninitialized_scan_is_noop.
Qed.
End ScanFrame.

Lemma scan_update_aborts_before_any_weight_witness :
  let self := one_particle_node (constant_field 0) 1 in
  let r := robot_scan_received
             (script_env (euler_const 0) tf_quaternion_from_euler)
             self (degree_scan [1]) in
  fst r = self /\ queries (snd r) = []
  /\ outcome (snd r) = Raise (NameError "cardinal_directions_idxs")
  /\ lookup_global script_globals "cardinal_directions_idxs"
     = Raise (NameError "cardinal_directions_idxs")
  /\ (forall direction_idxs,
        robot_scan_received_with direction_idxs
          (script_env (euler_const 0) tf_quaternion_from_euler) self
          (degree_scan [1])
        = r).
Proof.
  exact (scan_update_aborts_before_any_weight
           (euler_const 0) tf_quaternion_from_euler
           (one_particle_node (constant_field 0) 1) (degree_scan [1])
           _ [] eq_refl eq_refl).
Defined.

Lemma scan_without_field_is_noop_witness :
  initialized (@fresh_node R) = false
  /\ robot_scan_received (tf_env tf_quaternion_from_euler) fresh_node
       (degree_scan [1])
     = (fresh_node, ([], Ok tt)).
Proof.
  exact (scan_without_field_is_noop
           (tf_env tf_quaternion_from_euler) (constant_field 0) fresh_node
           (degree_scan [1]) (or_introl eq_refl) eq_refl).
Defined.

(** C10, as stated, fails: with [tf]'s signature the update of the freshly
    initialized node ends in the TypeError of line 142, not in the
    name-resolution error of line 148. *)
Lemma scan_update_raises_type_error_first :
  let env := tf_env (F := R) tf_quaternion_from_euler in
  let r := robot_scan_received env (init env (constant_field 0))
             (degree_scan [1; 1]) in
  outcome (snd r)
  = Raise (TypeError
      "euler_from_quaternion() takes from 1 to 2 positional arguments but 4 were given")
  /\ outcome (snd r) <> Raise (NameError "cardinal_directions_idxs").
Proof.
  cbv zeta.
  assert (Ho : outcome (snd (robot_scan_received
                 (tf_env tf_quaternion_from_euler)
                 (init (tf_env tf_quaternion_from_euler) (constant_field 0))
                 (degree_scan [1; 1])))
          = Raise (TypeError
      "euler_from_quaternion() takes from 1 to 2 positional arguments but 4 were given")).
  { unfold tf_env. erewrite script_scan_outcome; reflexivity. }
  rewrite Ho. split; [reflexivity | discriminate].
Qed.

(** C8, as stated, fails both ways: with no field built the update returns
    normally instead of failing with FieldNotReady, and with a field built
    and a well-formed scan it raises. *)
Lemma scan_failure_is_not_field_not_ready :
  let env := tf_env (F := R) tf_quaternion_from_euler in
  likelihood_field (@fresh_node R) = None
  /\ outcome (snd (robot_scan_received env fresh_node (degree_scan [1; 1])))
     = Ok tt
  /\ likelihood_field (init env (constant_field 0)) = Some (constant_field 0)
  /\ exists e, e <> FieldNotReady
     /\ outcome (snd (robot_scan_received env (init env (constant_field 0))
                        (degree_scan [1; 1])))
        = Raise e.
Proof.
  cbv zeta. repeat split.
  eexists. split; [|unfold tf_env; erewrite script_scan_outcome; reflexivity].
  discriminate.
Qed.

(** ** Literal data *)

Lemma Q2R_lit_0 : Q2R 0 = 0.
Proof. unfold Q2R; simpl; lra. Qed.

Lemma select_beams_spec_valid_pair :
  select_beams_spec 1 (degree_scan [1; 1]) = [0%Z; 1%Z].
Proof.
  unfold select_beams_spec, beam_usable; simpl.
  repeat (destruct (Rle_dec _ _); try lra). reflexivity.
Qed.

(** ** The seeded cloud *)

Lemma init_cloud (env : Env R) (lf : LikelihoodField R) :
  particle_cloud (init env lf)
  = List.map (seeded_particle (quaternion_from_euler env)) seed_poses.
Proof.
  unfold init, init_states, seed_poses, seeded_particle; cbn.
  rewrite !Q2R_lit_0.
  replace (PI * Q2R 3 / Q2R 2) with (3 * PI / 2)
    by (unfold Q2R; simpl; lra).
  replace (PI / Q2R 2) with (PI / 2) by (unfold Q2R; simpl; lra).
  replace (Q2R (-5)) with (-5) by (unfold Q2R; simpl; lra).
  replace (Q2R (-2)) with (-2) by (unfold Q2R; simpl; lra).
  rewrite Q2R_1. reflexivity.
Qed.

Lemma script_run_keeps_cloud e4 qfe (evs : list (@event R)) :
  forall self,
    particle_cloud (run_events (script_env e4 qfe) self evs)
    = particle_cloud self.
Proof.
  unfold run_events.
  induction evs as [|ev evs IH]; intros self; simpl; [reflexivity|].
  rewrite IH. destruct ev as [data|m|]; simpl; try reflexivity.
  now rewrite script_scan_keeps_node.
Qed.

(** C9. After initialization the particle cloud holds exactly four
    particles, in the order of the seed list (0, 0, 0), (-6.6, -3.5, pi),
    (5.8, -5, pi/2), (-2, 4.5, 3pi/2) - each heading stored as the
    quaternion of (0, 0, heading) - every one with weight exactly 1.0; and in
    the script as shipped this remains so after any sequence of scans, maps
    and publishing rounds. *)
Theorem particle_cloud_is_the_four_seeds
    e4 qfe (lf : LikelihoodField R) (evs : list (@event R)) :
  let env := script_env e4 qfe in
  let cloud := particle_cloud (run_events env (init env lf) evs) in
  particle_cloud (init env lf) = cloud
  /\ cloud = List.map (seeded_particle qfe)
               [ (0, 0, 0); (-6.6, -3.5, PI); (5.8, -5, PI / 2);
                 (-2, 4.5, 3 * PI / 2) ]
  /\ List.length cloud = 4%nat
  /\ Forall (fun p => w p = 1) cloud.
Proof.
  cbv zeta. rewrite script_run_keeps_cloud, init_cloud. simpl.
  repeat split. repeat constructor.
Qed.

(** ** The script on a scan with good readings *)

Lemma shipped_scan_on_seeded_node (data : LaserScan R) :
  let env := tf_env (F := R) tf_quaternion_from_euler in
  robot_scan_received env (init env (constant_field 0)) data
  = (init env (constant_field 0),
     ([], Raise (TypeError
        "euler_from_quaternion() takes from 1 to 2 positional arguments but 4 were given"))).
Proof.
  cbv zeta. unfold tf_env. erewrite script_scan_outcome; reflexivity.
Qed.

(** C3 evaluated.  The freshly initialized node receives a scan with two
    readings, both within the sensor's limits: the spec's selection with
    stride 1 takes both beams, the script uses none - it makes no query,
    leaves the node as it was and ends in the exception of line 142. *)
Theorem shipped_update_uses_no_beam :
  let env := tf_env (F := R) tf_quaternion_from_euler in
  let self := init env (constant_field 0) in
  let data := degree_scan [1; 1] in
  let r := robot_scan_received env self data in
  select_beams_spec 1 data = [0%Z; 1%Z]
  /\ queries (snd r) = []
  /\ fst r = self
  /\ outcome (snd r)
     = Raise (TypeError
         "euler_from_quaternion() takes from 1 to 2 positional arguments but 4 were given").
Proof.
  cbv zeta. rewrite shipped_scan_on_seeded_node.
  split; [apply select_beams_spec_valid_pair | repeat split].
Qed.

(** C4 evaluated.  On the same input - four particles, two selected beams,
    beam 0 with range 1 - no endpoint at all is handed to the distance
    field: the list of queried points is empty, so in particular the point
    one unit ahead of the first particle is not looked up. *)
Theorem shipped_update_queries_no_endpoint :
  let env := tf_env (F := R) tf_quaternion_from_euler in
  let self := init env (constant_field 0) in
  let data := degree_scan [1; 1] in
  let r := robot_scan_received env self data in
  List.length (particle_cloud self) = 4%nat
  /\ select_beams_spec 1 data = [0%Z; 1%Z]
  /\ py_index (ranges data) 0 = Ok 1
  /\ (forall xy, ~ In xy (queries (snd r)))
  /\ outcome (snd r) <> Ok tt.
Proof.
  cbv zeta. rewrite shipped_scan_on_seeded_node.
  split; [reflexivity|].
  split; [apply select_beams_spec_valid_pair|].
  split; [reflexivity|].
  split; [intros xy []|discriminate].
Qed.

(** C5 evaluated.  On the same input, with an obstacle at every queried
    point, the weights after the update are the four initial weights 1.0:
    no product of densities is written to any particle. *)
Theorem shipped_update_writes_no_weight :
  let env := tf_env (F := R) tf_quaternion_from_euler in
  let self := init env (constant_field 0) in
  let data := degree_scan [1; 1] in
  let r := robot_scan_received env self data in
  select_beams_spec 1 data = [0%Z; 1%Z]
  /\ List.map w (particle_cloud self) = [1; 1; 1; 1]
  /\ List.map w (particle_cloud (fst r)) = [1; 1; 1; 1]
  /\ queries (snd r) = []
  /\ outcome (snd r)
     = Raise (TypeError
         "euler_from_quaternion() takes from 1 to 2 positional arguments but 4 were given").
Proof.
  cbv zeta. rewrite shipped_scan_on_seeded_node. cbn [fst snd].
  rewrite init_cloud.
  split; [apply select_beams_spec_valid_pair | repeat split].
Qed.

(** * Further properties of the script *)

(** ** The callback on degenerate nodes and during construction *)

Section Degenerate.
Context {F : Type} `{Float F}.

(** X1. With no particle in the cloud the callback ends normally, asks the
    field nothing and leaves the node as it is - in any environment, the
    script's own included: the names of the loop body are never read. *)
Theorem empty_cloud_scan_is_silent
    (env : Env F) (self : Node F) (data : LaserScan F)
    (Hempty : particle_cloud self = []) :
  robot_scan_received env self data = (self, ([], Ok tt)).
Proof.
  destruct self as [i m lf c]. simpl in Hempty. subst c.
  unfold robot_scan_received, robot_scan_received_with; simpl.
  destruct i; reflexivity.
Qed.

(** X2. A scan that arrives while [__init__] is still running - in any state
    before the last assignment, also once the field and the four particles
    are there - changes nothing and asks nothing.  Only the last state is
    marked initialized, and it has its field and its four particles. *)
Theorem scan_during_construction_is_noop
    (env : Env F) (lf : LikelihoodField F) :
  (forall self data,
      In self (removelast (init_states env lf)) ->
      robot_scan_received env self data = (self, ([], Ok tt)))
  /\ initialized (init env lf) = true
  /\ likelihood_field (init env lf) = Some lf
  /\ List.length (particle_cloud (init env lf)) = 4%nat.
Proof.
  split; [|repeat split].
  intros self data Hin. apply uninitialized_scan_is_noop.
  unfold init_states in Hin. simpl in Hin.
  destruct Hin as [<-|[<-|[<-|[<-|[]]]]]; reflexivity.
Qed.

(** X3. The shipped script never queries the likelihood field and never
    changes the node, whatever the node, the scan and the behaviour of
    [tf]. *)
Theorem shipped_scan_never_queries e4 qfe (self : Node F) data :
  fst (robot_scan_received (script_env e4 qfe) self data) = self
  /\ queries (snd (robot_scan_received (script_env e4 qfe) self data)) = [].
Proof.
  split; [apply script_scan_keeps_node|].
  unfold robot_scan_received, robot_scan_received_with.
  destruct self as [[|] m lf [|p rest]]; simpl; try reflexivity.
  rewrite script_particle_likelihood. destruct (e4 _ _ _ _); reflexivity.
Qed.
(** C2. For every particle and every scan - in particular every scan from
    which zero beams are selected, empty or fully invalid - the measurement
    update of the script leaves the particle's weight equal to its previous
    weight (and its pose as it was): no weight is set to 1.0 or to any other
    constant.  This holds whatever the [tf] conversion does. *)
Theorem scan_keeps_every_weight e4 qfe (self : Node F) (data : LaserScan F) :
  Forall2 (fun p p' => w p' = w p /\ pose p' = pose p)
          (particle_cloud self)
          (particle_cloud
             (fst (robot_scan_received (script_env e4 qfe) self data))).
Proof.
  rewrite script_scan_keeps_node.
  induction (particle_cloud self) as [|p rest IH]; constructor;
    [split; reflexivity | exact IH].
Qed.
End Degenerate.

Lemma empty_cloud_scan_is_silent_witness :
  let self := {| initialized := true; node_map := None;
                 likelihood_field := Some (constant_field 0);
                 particle_cloud := [] |} in
  robot_scan_received (tf_env tf_quaternion_from_euler) self (degree_scan [1])
  = (self, ([], Ok tt)).
Proof.
  exact (empty_cloud_scan_is_silent (tf_env tf_quaternion_from_euler)
           {| initialized := true; node_map := None;
              likelihood_field := Some (constant_field 0);
              particle_cloud := [] |} (degree_scan [1]) eq_refl).
Defined.

Lemma scan_during_construction_is_noop_witness :
  let env := tf_env (F := R) tf_quaternion_from_euler in
  let self := fst (initialize_particle_cloud env
                {| initialized := false;
                   node_map := Some (mkOccupancyGrid 0 0 []);
                   likelihood_field := Some (constant_field 0);
                   particle_cloud := [] |}) in
  robot_scan_received env self (degree_scan [1]) = (self, ([], Ok tt)).
Proof.
  exact (proj1 (scan_during_construction_is_noop
                  (tf_env tf_quaternion_from_euler) (constant_field 0))
               _ (degree_scan [1])
               (or_intror (or_intror (or_intror (or_introl eq_refl))))).
Defined.

(** ** The frame of the update, and repeated scans *)

Section Updates.
Context {F : Type} `{Float F}.

Lemma beam_loop_depends_on_field (self1 self2 : Node F) data x y theta idxs :
  likelihood_field self1 = likelihood_field self2 ->
  forall q,
    beam_loop self1 data x y theta idxs q
    = beam_loop self2 data x y theta idxs q.
Proof.
  intros Hlf. induction idxs as [|i rest IH]; intros q; simpl; [reflexivity|].
  destruct (scan_end data x y theta i) as [xy|e]; simpl; [|reflexivity].
  unfold closest_obstacle_distance. rewrite Hlf.
  destruct (likelihood_field self2) as [lf|]; simpl; [|reflexivity].
  destruct (get_closest_obstacle_distance lf (fst xy) (snd xy)) as [d|e];
    simpl; [|reflexivity].
  now rewrite IH.
Qed.

(** The value computed for a particle depends on the node through its field
    only, and on the particle through its pose only. *)
Lemma particle_likelihood_depends_on_pose env (self1 self2 : Node F) data p1 p2 :
  likelihood_field self1 = likelihood_field self2 ->
  pose p1 = pose p2 ->
  particle_likelihood env self1 data p1 = particle_likelihood env self2 data p2.
Proof.
  intros Hlf Hp. unfold particle_likelihood. rewrite Hp.
  destruct (euler_from_quaternion4 env _ _ _ _) as [euler|e]; simpl;
    [|reflexivity].
  destruct (lookup_global _ _) as [o|e]; simpl; [|reflexivity].
  destruct (py_iter o) as [idxs|e]; simpl; [|reflexivity].
  now rewrite (beam_loop_depends_on_field self1 self2 data _ _ _ idxs Hlf).
Qed.

(** C7. For every particle set and every scan, the measurement update
    keeps the length and the order of the particle set and every
    particle's pose, and changes no other attribute of the node.  A particle
    either keeps its old weight or gets the value computed from its own
    pose, the field and the scan alone - the same value in any node with
    that field, whatever particles and weights the node holds: nothing is
    added, removed, reordered or normalized across particles. *)
Theorem scan_update_changes_only_weights
    (env : Env F) (self : Node F) (data : LaserScan F) :
  let self' := fst (robot_scan_received env self data) in
  initialized self' = initialized self
  /\ node_map self' = node_map self
  /\ likelihood_field self' = likelihood_field self
  /\ List.length (particle_cloud self') = List.length (particle_cloud self)
  /\ List.map pose (particle_cloud self') = List.map pose (particle_cloud self)
  /\ Forall2 (fun p p' =>
                pose p' = pose p
                /\ (w p' = w p
                    \/ forall (other : Node F) (p2 : Particle F),
                         likelihood_field other = likelihood_field self ->
                         pose p2 = pose p ->
                         exists l, particle_likelihood env other data p2
                                   = (l, Ok (w p'))))
             (particle_cloud self) (particle_cloud self').
Proof.
  assert (Hf : Forall2 (fun p p' =>
                pose p' = pose p
                /\ (w p' = w p
                    \/ forall (other : Node F) (p2 : Particle F),
                         likelihood_field other = likelihood_field self ->
                         pose p2 = pose p ->
                         exists l, particle_likelihood env other data p2
                                   = (l, Ok (w p'))))
             (particle_cloud self)
             (particle_cloud (fst (robot_scan_received env self data)))).
  { unfold robot_scan_received, robot_scan_received_with.
    destruct (initialized self); simpl.
    - pose proof (particle_loop_frame env self data (particle_cloud self)) as Hl.
      destruct (particle_loop env self data (particle_cloud self)) as [c m].
      simpl in *. eapply Forall2_impl; [|exact Hl].
      intros p p' [Hpose [Hw|[l Hl']]]; (split; [assumption|]);
        [now left|right].
      intros other p2 Hlf Hp2. exists l.
      now rewrite (particle_likelihood_depends_on_pose env other self data
                     p2 p Hlf Hp2).
    - induction (particle_cloud self); constructor; auto. }
  cbv zeta. repeat split; try exact Hf.
  - unfold robot_scan_received, robot_scan_received_with.
    destruct (initialized self) eqn:Hi; simpl;
      [destruct (particle_loop _ _ _ _); simpl|]; congruence.
  - unfold robot_scan_received, robot_scan_received_with.
    destruct (initialized self); simpl;
      [destruct (particle_loop _ _ _ _)|]; reflexivity.
  - unfold robot_scan_received, robot_scan_received_with.
    destruct (initialized self); simpl;
      [destruct (particle_loop _ _ _ _)|]; reflexivity.
  - symmetry. eapply Forall2_length, Hf.
  - clear -Hf. induction Hf as [|p p' c c' [Hp _] _ IH]; simpl; congruence.
Qed.

Lemma particle_loop_idempotent env (self self' : Node F) data :
  likelihood_field self' = likelihood_field self ->
  forall cloud,
    particle_loop env self' data (fst (particle_loop env self data cloud))
    = particle_loop env self data cloud.
Proof.
  intros Hlf. induction cloud as [|p rest IH]; simpl; [reflexivity|].
  destruct (particle_likelihood env self data p) as [l [q|e]] eqn:Hp.
  - destruct (particle_loop env self data rest) as [rest' m] eqn:Hrest.
    simpl in *.
    rewrite (particle_likelihood_depends_on_pose env self' self data
               (set_w p q) p Hlf eq_refl), Hp.
    rewrite IH. reflexivity.
  - simpl.
    rewrite (particle_likelihood_depends_on_pose env self' self data
               p p Hlf eq_refl), Hp.
    reflexivity.
Qed.

(** X5. Receiving the same scan a second time changes nothing more: the
    second pass makes the same queries, ends the same way and leaves the
    node exactly as the first pass left it - also when that pass was cut
    short by an exception. *)
Theorem repeated_scan_is_idempotent
    (env : Env F) (self : Node F) (data : LaserScan F) :
  robot_scan_received env (fst (robot_scan_received env self data)) data
  = robot_scan_received env self data.
Proof.
  unfold robot_scan_received, robot_scan_received_with.
  destruct (initialized self) eqn:Hi; simpl; [|now rewrite Hi].
  destruct (particle_loop env self data (particle_cloud self)) as [c m] eqn:Hl.
  simpl.
  pose proof (particle_loop_idempotent env self
                {| initialized := true; node_map := node_map self;
                   likelihood_field := likelihood_field self;
                   particle_cloud := c |} data eq_refl (particle_cloud self))
    as Hidem.
  rewrite Hl in Hidem. simpl in Hidem. rewrite Hidem. reflexivity.
Qed.

Lemma scan_keeps_frame env (self : Node F) data :
  initialized (fst (robot_scan_received env self data)) = initialized self
  /\ node_map (fst (robot_scan_received env self data)) = node_map self
  /\ likelihood_field (fst (robot_scan_received env self data))
     = likelihood_field self
  /\ publish_particle_cloud (fst (robot_scan_received env self data))
     = publish_particle_cloud self.
Proof.
  unfold robot_scan_received, robot_scan_received_with, publish_particle_cloud.
  destruct (initialized self) eqn:Hi; simpl; [|now rewrite Hi].
  pose proof (particle_loop_frame env self data (particle_cloud self)) as Hf.
  destruct (particle_loop env self data (particle_cloud self)) as [c m].
  simpl in *. repeat split.
  induction Hf as [|p p' c0 c' [Hp _] _ IH]; simpl; congruence.
Qed.

(** X9. Over the whole life of the node, in any environment: no sequence of
    scans, maps and publishing rounds changes the initialization flag, the
    likelihood field, or the pose array that [publish_particle_cloud] sends
    out. *)
Theorem events_never_move_particles
    (env : Env F) (evs : list (@event F)) :
  forall self : Node F,
    initialized (run_events env self evs) = initialized self
    /\ likelihood_field (run_events env self evs) = likelihood_field self
    /\ publish_particle_cloud (run_events env self evs)
       = publish_particle_cloud self.
Proof.
  unfold run_events.
  induction evs as [|ev evs IH]; intros self; simpl; [repeat split|].
  destruct (IH (handle env self ev)) as (Hi & Hlf & Hpub).
  rewrite Hi, Hlf, Hpub. clear.
  destruct ev as [data|m|]; simpl; [|repeat split..].
  destruct (scan_keeps_frame env self data) as (Hi & _ & Hlf & Hpub).
  repeat split; assumption.
Qed.

End Updates.

(** ** Re-initialization *)

(** X18. [initialize_particle_cloud] starts from an empty list: the cloud it
    leaves does not depend on the cloud or the weights the node held
    before, so calling it again after any number of updates restores the
    seeded cloud; it publishes the poses of exactly that cloud, and it keeps
    the flag, the map and the field. *)
Theorem initialize_particle_cloud_resets
    (F : Type) (HF : Float F) (env : Env F) (self other : Node F) :
  let self' := fst (initialize_particle_cloud env self) in
  particle_cloud self'
  = particle_cloud (fst (initialize_particle_cloud env other))
  /\ fst (initialize_particle_cloud env self') = self'
  /\ snd (initialize_particle_cloud env self)
     = List.map pose (particle_cloud self')
  /\ List.length (snd (initialize_particle_cloud env self)) = 4%nat
  /\ initialized self' = initialized self
  /\ node_map self' = node_map self
  /\ likelihood_field self' = likelihood_field self.
Proof.
  cbv zeta. repeat split.
Qed.

